(** * validate.py: the preflight validation script of the eBPF ransomware
    detector, as a shallow embedding.

    The script is a straight-line Python program with effects: it prints
    report lines, it asks the host about the interpreter version, the
    effective user id, the existence of files, the importability of the
    [bcc] module and the outcome of compiling/loading [bpf.c], and the
    [bcc] library may raise exceptions.  We model it in a small
    state-and-exception monad: the state holds the printed lines and the
    trace of host interactions; the host is an environment record whose
    answers may depend on the number of prior interactions (so a file may
    disappear between two queries, an import may succeed once and fail the
    next time, ...).  [print] itself never raises in this model. *)

From Stdlib Require Import List Bool ZArith Lia.
From stdpp Require Import base strings pretty.
Import ListNotations.
Open Scope Z_scope.

(** ** Python exceptions *)

(** The exception classes the script can meet, with Python's hierarchy:
    [ModuleNotFoundError] derives from [ImportError]; [KeyboardInterrupt],
    [SystemExit] and [GeneratorExit] derive from [BaseException] but not
    from [Exception]. *)
Inductive exc_class :=
  | Exception_
  | ImportError
  | ModuleNotFoundError
  | OSError
  | RuntimeError
  | KeyboardInterrupt
  | SystemExit
  | GeneratorExit.

(** [isinstance(e, ImportError)] *)
Definition is_ImportError (c : exc_class) : bool :=
  match c with
  | ImportError | ModuleNotFoundError => true
  | _ => false
  end.

(** [isinstance(e, Exception)] *)
Definition is_Exception (c : exc_class) : bool :=
  match c with
  | KeyboardInterrupt | SystemExit | GeneratorExit => false
  | _ => true
  end.

(** An exception value: its class and [str(e)]. *)
Record exc := mk_exc { exc_cls : exc_class; exc_str : string }.

(** Result of a computation: a value, or an exception in flight. *)
Inductive res (A : Type) :=
  | Ok (a : A)
  | Raise (e : exc).
Arguments Ok {A} a.
Arguments Raise {A} e.

(** ** The host *)

(** A loaded [BPF] object: [name in b] may answer or raise. *)
Record handle := mk_handle { bpf_contains : string -> res bool }.

(** [sys.version_info] *)
Record version_info := mk_version { major : Z; minor : Z; micro : Z }.

(** The host interactions, recorded in the trace. *)
Inductive event :=
  | EvGetuid
  | EvExists (path : string)
  | EvImportBcc
  | EvBPF (src_file : string) (cflags : list string) (debug : Z).

(** The host.  Every answer is indexed by the clock, the number of host
    interactions performed before it. *)
Record Env := mk_env {
  env_version : version_info;
  env_getuid : nat -> Z;
  env_exists : nat -> string -> bool;
  env_import_bcc : nat -> option exc;
  env_BPF : nat -> string -> list string -> Z -> res handle
}.

(** ** The monad *)

Record St := mk_st { out : list string; trace : list event }.

Definition St0 : St := mk_st [] [].

Definition M (A : Type) : Type := St -> res A * St.

Definition ret {A} (a : A) : M A := fun st => (Ok a, st).

Definition bind {A B} (m : M A) (k : A -> M B) : M B :=
  fun st =>
    match m st with
    | (Ok a, st') => k a st'
    | (Raise e, st') => (Raise e, st')
    end.

Declare Scope py_scope.
Delimit Scope py_scope with py.
Notation "'let!' x ':=' m 'in' k" := (bind m (fun x => k))
  (at level 60, x name, m at next level, right associativity) : py_scope.
Notation "'do' m ; k" := (bind m (fun _ => k))
  (at level 60, m at next level, right associativity) : py_scope.
Open Scope py_scope.

(** [try: m except <cls> as e: h e] *)
Definition try_except {A} (m : M A) (catches : exc_class -> bool)
    (h : exc -> M A) : M A :=
  fun st =>
    match m st with
    | (Raise e, st') => if catches (exc_cls e) then h e st' else (Raise e, st')
    | r => r
    end.

(** [print(s)] *)
Definition print (s : string) : M unit :=
  fun st => (Ok tt, mk_st (out st ++ [s]) (trace st)).

(** ["=" * n] *)
Fixpoint str_repeat (s : string) (n : nat) : string :=
  match n with
  | O => ""
  | S n' => s +:+ str_repeat s n'
  end.

Section Script.

Variable env : Env.

(** One host interaction: record it, answer at the current clock. *)
Definition call {A} (ev : event) (answer : nat -> res A) : M A :=
  fun st => (answer (length (trace st)), mk_st (out st) (trace st ++ [ev])).

Definition os_getuid : M Z :=
  call EvGetuid (fun t => Ok (env_getuid env t)).

Definition os_path_exists (p : string) : M bool :=
  call (EvExists p) (fun t => Ok (env_exists env t p)).

(** [from bcc import BPF] *)
Definition import_bcc : M unit :=
  call EvImportBcc (fun t =>
    match env_import_bcc env t with
    | None => Ok tt
    | Some e => Raise e
    end).

(** [BPF(src_file=..., cflags=..., debug=...)] *)
Definition BPF (src_file : string) (cflags : list string) (debug : Z) : M handle :=
  call (EvBPF src_file cflags debug) (fun t => env_BPF env t src_file cflags debug).

(** [map_name in b] *)
Definition bpf_in (map_name : string) (b : handle) : M bool :=
  fun st => (bpf_contains b map_name, st).

(** [sys.version_info] is a constant of the running interpreter. *)
Definition sys_version_info : M version_info := ret (env_version env).


(** ** The checks *)

(** [check_root] (lines 10-17) *)
Definition check_root : M bool :=
  let! uid := os_getuid in
  if Z.eqb uid 0 then
    do print "✓ Running as root (optional for validation)";
    ret true
  else
    do print "ℹ Not running as root (this is OK for validation)";
    ret false.

Definition version_line (glyph : string) (v : version_info) : string :=
  glyph +:+ " Python " +:+ pretty (major v) +:+ "." +:+ pretty (minor v) +:+ "."
        +:+ pretty (micro v) +:+ " (requires 3.6+)".

(** [check_python_version] (lines 19-27) *)
Definition check_python_version : M bool :=
  let! version := sys_version_info in
  if (3 <=? major version) && (6 <=? minor version) then
    do print (version_line "✓" version);
    ret true
  else
    do print (version_line "✗" version);
    ret false.

(** [check_bcc] (lines 29-38): only [ImportError] is caught. *)
Definition check_bcc : M bool :=
  try_except
    (do import_bcc;
     do print "✓ BCC Python module available";
     ret true)
    is_ImportError
    (fun _ =>
     do print "✗ BCC Python module not found";
     do print "  Install with: sudo apt-get install python3-bpfcc";
     ret false).

(** [f"✓ {file} exists"] / [f"✗ {file} not found"] *)
Definition file_line (file : string) (exists_ : bool) : string :=
  if exists_ then "✓ " +:+ file +:+ " exists" else "✗ " +:+ file +:+ " not found".

Definition required_files : list string := ["detector.py"; "bpf.c"; "bpf.h"].

(** The [for file in required_files] loop of [check_files]. *)
Fixpoint check_files_loop (files : list string) (all_exist : bool) : M bool :=
  match files with
  | [] => ret all_exist
  | file :: rest =>
      let! ex := os_path_exists file in
      if ex then
        do print (file_line file true);
        check_files_loop rest all_exist
      else
        do print (file_line file false);
        check_files_loop rest false
  end.

(** [check_files] (lines 40-52) *)
Definition check_files : M bool := check_files_loop required_files true.

(** [f"  ✓ Map '{map_name}' found"] / [f"  ✗ Map '{map_name}' not found"] *)
Definition map_line (map_name : string) (found : bool) : string :=
  if found then "  ✓ Map '" +:+ map_name +:+ "' found"
  else "  ✗ Map '" +:+ map_name +:+ "' not found".

Definition required_maps : list string :=
  ["config"; "patterns"; "threshold_patterns"; "pidstats"; "events"].

(** The [for map_name in required_maps] loop of [compile_bpf]. *)
Fixpoint check_maps (b : handle) (maps : list string) : M unit :=
  match maps with
  | [] => ret tt
  | map_name :: rest =>
      let! found := bpf_in map_name b in
      do print (map_line map_name found);
      check_maps b rest
  end.

Definition bpf_cflags : list string := ["-Wno-macro-redefined"].

(** The [try] block of [compile_bpf] (lines 57-75). *)
Definition compile_bpf_body : M bool :=
  do import_bcc;
  let! ex := os_path_exists "bpf.c" in
  if negb ex then
    do print "✗ bpf.c not found";
    ret false
  else
    do print "Compiling BPF program...";
    let! b := BPF "bpf.c" bpf_cflags 0 in
    do print "✓ BPF program compiled successfully";
    do check_maps b required_maps;
    ret true.

(** [compile_bpf] (lines 54-78): [except Exception as e]. *)
Definition compile_bpf : M bool :=
  try_except compile_bpf_body
    is_Exception
    (fun e =>
     do print ("✗ BPF compilation failed: " +:+ exc_str e);
     ret false).

(** ** The orchestrator [main] (lines 80-125) *)

Definition rule : string := str_repeat "=" 60.

(** [all(xs)] *)
Definition all (xs : list bool) : bool := forallb (fun x => x) xs.

(** Lines 87-99: the first three checks, appended to [results]. *)
Definition run_checks_123 : M (list bool) :=
  let results := [] in
  do print "1. Checking Python version...";
  let! r := check_python_version in
  let results := results ++ [r] in
  do print "";
  do print "2. Checking required files...";
  let! r := check_files in
  let results := results ++ [r] in
  do print "";
  do print "3. Checking BCC availability...";
  let! r := check_bcc in
  let results := results ++ [r] in
  do print "";
  ret results.

(** Lines 101-108: the gated compilation check. *)
Definition run_check_4 (results : list bool) : M (list bool) :=
  if all (firstn 3 results) then
    do print "4. Compiling BPF program...";
    let! r := compile_bpf in
    let results := results ++ [r] in
    do print "";
    ret results
  else
    do print "4. Skipping BPF compilation (prerequisites not met)";
    let results := results ++ [false] in
    do print "";
    ret results.

(** Lines 110-112: the privilege report; its result is discarded. *)
Definition run_check_5 : M unit :=
  do print "5. Checking permissions...";
  let! _ := check_root in
  print "".

(** Lines 87-112. *)
Definition run_checks : M (list bool) :=
  let! results := run_checks_123 in
  let! results := run_check_4 results in
  do run_check_5;
  ret results.

Definition banner : M unit :=
  do print rule;
  do print "eBPF Ransomware Detector - Validation Script";
  do print rule;
  print "".

(** Lines 114-125: the verdict and the exit status. *)
Definition verdict (results : list bool) : M Z :=
  do print rule;
  if all results then
    do print "✅ All validations passed!";
    do print "";
    do print "System is ready to run the detector:";
    do print "  sudo python3 detector.py";
    ret 0
  else
    do print "❌ Some validations failed";
    do print "";
    do print "Please fix the issues above before running the detector.";
    ret 1.

(** [main] *)
Definition main : M Z :=
  do banner;
  let! results := run_checks in
  verdict results.

End Script.

(** The host's answers to [os.path.exists] for [files], queried one after
    the other from clock [t]. *)
Fixpoint answers (env : Env) (t : nat) (files : list string) : list bool :=
  match files with
  | [] => []
  | f :: fs => env_exists env t f :: answers env (S t) fs
  end.

(** ** Report lines and growth of the state *)

(** The status line of [check_root] for a user id. *)
Definition root_line (uid : Z) : string :=
  if Z.eqb uid 0 then "✓ Running as root (optional for validation)"
  else "ℹ Not running as root (this is OK for validation)".

(** A computation only appends to the output and to the trace. *)
Definition extends {A} (m : M A) : Prop :=
  forall st, exists o t, snd (m st) = mk_st (out st ++ o) (trace st ++ t).

(** ** Hosts that give the same readings *)

(** Two loaded probes answer alike on the five required tables. *)
Definition handle_agree (h1 h2 : handle) : Prop :=
  forall n, In n required_maps -> bpf_contains h1 n = bpf_contains h2 n.

Definition load_agree (r1 r2 : res handle) : Prop :=
  match r1, r2 with
  | Ok h1, Ok h2 => handle_agree h1 h2
  | Raise e1, Raise e2 => e1 = e2
  | _, _ => False
  end.

(** Same interpreter version, same existence answers for the three
    artifacts, same [bcc] imports, same load outcome and table memberships. *)
Definition agree_checks (e1 e2 : Env) : Prop :=
  env_version e1 = env_version e2 /\
  (forall t p, In p required_files -> env_exists e1 t p = env_exists e2 t p) /\
  (forall t, env_import_bcc e1 t = env_import_bcc e2 t) /\
  (forall t, load_agree (env_BPF e1 t "bpf.c" bpf_cflags 0) (env_BPF e2 t "bpf.c" bpf_cflags 0)).

(** ... and the same effective user id. *)
Definition agree (e1 e2 : Env) : Prop :=
  agree_checks e1 e2 /\ forall t, env_getuid e1 t = env_getuid e2 t.

(** The host [env] with another effective user id. *)
Definition env_with_uid (env : Env) (uid : nat -> Z) : Env :=
  mk_env (env_version env) uid (env_exists env) (env_import_bcc env) (env_BPF env).

(** ** Concrete hosts *)

Definition all_maps : handle := mk_handle (fun _ => Ok true).

(** Python 3.10, unprivileged, all files, bcc importable, compilation ok. *)
Definition env_ok : Env :=
  mk_env (mk_version 3 10 12) (fun _ => 1000) (fun _ _ => true)
    (fun _ => None) (fun _ _ _ _ => Ok all_maps).

(** The same host, except for files the script never asks about, tables it
    never looks up, and loads with other arguments. *)
Definition env_ok' : Env :=
  mk_env (mk_version 3 10 12) (fun _ => 1000)
    (fun _ p => if String.eqb p "README.md" then false else true)
    (fun _ => None)
    (fun _ src _ _ =>
       if String.eqb src "bpf.c"
       then Ok (mk_handle (fun n => if String.eqb n "extra" then Ok false else Ok true))
       else Raise (mk_exc OSError "No such file")).

(** Python 4.0, everything else as in [env_ok]. *)
Definition env_py40 : Env :=
  mk_env (mk_version 4 0 0) (fun _ => 1000) (fun _ _ => true)
    (fun _ => None) (fun _ _ _ _ => Ok all_maps).

(** A probe exposing only [config] and [events]. *)
Definition some_maps_present (n : string) : bool :=
  String.eqb n "config" || String.eqb n "events".
Definition some_maps : handle := mk_handle (fun n => Ok (some_maps_present n)).

Definition env_some_maps : Env :=
  mk_env (mk_version 3 10 12) (fun _ => 1000) (fun _ _ => true)
    (fun _ => None) (fun _ _ _ _ => Ok some_maps).

(** The load fails with a compiler error. *)
Definition compile_error : exc := mk_exc Exception_ "Failed to compile BPF module bpf.c".

Definition env_load_fails : Env :=
  mk_env (mk_version 3 10 12) (fun _ => 1000) (fun _ _ => true)
    (fun _ => None) (fun _ _ _ _ => Raise compile_error).

(** The load is interrupted (Ctrl-C during a slow build). *)
Definition interrupt : exc := mk_exc KeyboardInterrupt "".

Definition env_load_interrupted : Env :=
  mk_env (mk_version 3 10 12) (fun _ => 1000) (fun _ _ => true)
    (fun _ => None) (fun _ _ _ _ => Raise interrupt).

(** [check_bcc]'s import (clock 3) succeeds; the import that opens
    [compile_bpf] (clock 4) is interrupted. *)
Definition env_import_interrupted : Env :=
  mk_env (mk_version 3 10 12) (fun _ => 1000) (fun _ _ => true)
    (fun t => if Nat.leb 4 t then Some interrupt else None)
    (fun _ _ _ _ => Ok all_maps).

(** The [bcc] package is installed but its shared library cannot be
    loaded: the import raises [OSError], not [ImportError]. *)
Definition libbcc_error : exc :=
  mk_exc OSError "libbcc.so.0: cannot open shared object file: No such file or directory".

Definition env_libbcc_broken : Env :=
  mk_env (mk_version 3 10 12) (fun _ => 1000) (fun _ _ => true)
    (fun _ => Some libbcc_error) (fun _ _ _ _ => Ok all_maps).

(** [bpf.h] is missing; everything else as in [env_ok]. *)
Definition env_no_header : Env :=
  mk_env (mk_version 3 10 12) (fun _ => 1000) (fun _ p => negb (String.eqb p "bpf.h"))
    (fun _ => None) (fun _ _ _ _ => Ok all_maps).

(** A loaded probe whose membership test fails on [patterns]. *)
Definition lookup_error : exc := mk_exc RuntimeError "Could not open table patterns".

Definition broken_tables : handle :=
  mk_handle (fun n => if String.eqb n "patterns" then Raise lookup_error else Ok true).

Definition env_broken_tables : Env :=
  mk_env (mk_version 3 10 12) (fun _ => 1000) (fun _ _ => true)
    (fun _ => None) (fun _ _ _ _ => Ok broken_tables).

Example env_ok_main : fst (main env_ok St0) = Ok 0.
Proof. reflexivity. Qed.

(** ** Monad laws used below *)

Lemma bind_ok {A B} (m : M A) (k : A -> M B) st a st' :
  m st = (Ok a, st') -> bind m k st = k a st'.
Proof. intros H. unfold bind. rewrite H. reflexivity. Qed.

Lemma bind_raise {A B} (m : M A) (k : A -> M B) st e st' :
  m st = (Raise e, st') -> bind m k st = (Raise e, st').
Proof. intros H. unfold bind. rewrite H. reflexivity. Qed.

Lemma bind_assoc {A B C} (m : M A) (k1 : A -> M B) (k2 : B -> M C) st :
  bind (bind m k1) k2 st = bind m (fun a => bind (k1 a) k2) st.
Proof. unfold bind. destruct (m st) as [[a|e] st']; reflexivity. Qed.

Lemma try_ok {A} (m : M A) c h st a st' :
  m st = (Ok a, st') -> try_except m c h st = (Ok a, st').
Proof. intros H. unfold try_except. rewrite H. reflexivity. Qed.

Lemma try_caught {A} (m : M A) c h st e st' :
  m st = (Raise e, st') -> c (exc_cls e) = true -> try_except m c h st = h e st'.
Proof. intros H Hc. unfold try_except. rewrite H, Hc. reflexivity. Qed.

Lemma print_eq s st : print s st = (Ok tt, mk_st (out st ++ [s]) (trace st)).
Proof. reflexivity. Qed.

(** Rewrite the head [bind] with an equation for its first computation. *)
Ltac step H := erewrite bind_ok; [cbv beta | apply H].
Ltac step_print := erewrite bind_ok; [cbv beta | apply print_eq].

(** ** RuntimeVersionCheck *)

Lemma check_python_version_eq env st :
  let v := env_version env in
  let b := (3 <=? major v) && (6 <=? minor v) in
  check_python_version env st =
    (Ok b, mk_st (out st ++ [version_line (if b then "✓" else "✗") v]) (trace st)).
Proof.
  cbv zeta. unfold check_python_version, sys_version_info, bind, ret.
  destruct ((3 <=? major (env_version env)) && (6 <=? minor (env_version env)));
    reflexivity.
Qed.

(** C4: RuntimeVersionCheck never raises, and passes iff the major version
    is at least 3 and the minor version is at least 6, the two thresholds
    tested independently. *)
Theorem check_python_version_passes env st :
  fst (check_python_version env st) =
    Ok ((3 <=? major (env_version env)) && (6 <=? minor (env_version env))) /\
  (fst (check_python_version env st) = Ok true <->
     3 <= major (env_version env) /\ 6 <= minor (env_version env)).
Proof.
  rewrite check_python_version_eq. simpl. split; [reflexivity |].
  split.
  - intros H. inversion H as [H1]. apply andb_true_iff in H1.
    rewrite !Z.leb_le in H1. exact H1.
  - intros [H1 H2]. apply Z.leb_le in H1, H2. rewrite H1, H2. reflexivity.
Qed.

(** C8: a version with major at least 4 and minor below 6 (such as 4.0) is
    rejected: the thresholds are independent, not a lexicographic
    comparison with (3, 6). *)
Theorem check_python_version_rejects_4_0 env st :
  4 <= major (env_version env) -> minor (env_version env) < 6 ->
  fst (check_python_version env st) = Ok false.
Proof.
  intros Hmaj Hmin. rewrite check_python_version_eq. simpl.
  replace (6 <=? minor (env_version env)) with false
    by (symmetry; apply Z.leb_gt; exact Hmin).
  rewrite andb_false_r. reflexivity.
Qed.

(** ** ArtifactPresenceCheck *)

Lemma os_path_exists_eq env p st :
  os_path_exists env p st =
    (Ok (env_exists env (length (trace st)) p), mk_st (out st) (trace st ++ [EvExists p])).
Proof. reflexivity. Qed.

Lemma check_files_loop_eq env files acc st :
  check_files_loop env files acc st =
    (Ok (acc && all (answers env (length (trace st)) files)),
     mk_st (out st ++ zip_with file_line files (answers env (length (trace st)) files))
           (trace st ++ map EvExists files)).
Proof.
  revert acc st. induction files as [|f fs IH]; intros acc st.
  - simpl. rewrite !app_nil_r, andb_true_r. destruct st. reflexivity.
  - cbn [check_files_loop]. step (os_path_exists_eq env f st).
    destruct (env_exists env (length (trace st)) f) eqn:Hf;
      step_print; rewrite IH; simpl; rewrite length_app; simpl;
      rewrite Nat.add_1_r, <- !app_assoc; simpl; rewrite ?Hf.
    + reflexivity.
    + rewrite andb_false_r. reflexivity.
Qed.

(** C6: ArtifactPresenceCheck passes iff the three required files exist,
    prints one found/not-found line per file, in order, and the not-found
    lines name exactly the files reported missing. *)
Theorem check_files_reports env st :
  let t := length (trace st) in
  let a := answers env t required_files in
  check_files env st =
    (Ok (all a),
     mk_st (out st ++ zip_with file_line required_files a)
           (trace st ++ map EvExists required_files)) /\
  (all a = true <->
     env_exists env t "detector.py" = true /\ env_exists env (S t) "bpf.c" = true /\
     env_exists env (S (S t)) "bpf.h" = true) /\
  (forall f, In f required_files ->
     (In (file_line f false) (zip_with file_line required_files a) <->
      In (f, false) (combine required_files a))).
Proof.
  cbv zeta. split; [| split].
  - unfold check_files. rewrite check_files_loop_eq. reflexivity.
  - simpl. destruct (env_exists env (length (trace st)) "detector.py"),
      (env_exists env (S (length (trace st))) "bpf.c"),
      (env_exists env (S (S (length (trace st)))) "bpf.h");
      simpl; intuition congruence.
  - intros f Hf. simpl in Hf |- *.
    destruct (env_exists env (length (trace st)) "detector.py"),
      (env_exists env (S (length (trace st))) "bpf.c"),
      (env_exists env (S (S (length (trace st)))) "bpf.h");
      simpl; intuition (subst; simpl in *; first
        [ congruence
        | match goal with H : @eq string _ _ |- _ => vm_compute in H; discriminate H end ]).
Qed.

(** ** ProbeCompilationCheck *)

Lemma length_snoc {A} (l : list A) x : length (l ++ [x]) = S (length l).
Proof. rewrite length_app, Nat.add_1_r. reflexivity. Qed.

Lemma import_bcc_ok env st :
  env_import_bcc env (length (trace st)) = None ->
  import_bcc env st = (Ok tt, mk_st (out st) (trace st ++ [EvImportBcc])).
Proof. intros H. unfold import_bcc, call. rewrite H. reflexivity. Qed.

Lemma import_bcc_raise env st e :
  env_import_bcc env (length (trace st)) = Some e ->
  import_bcc env st = (Raise e, mk_st (out st) (trace st ++ [EvImportBcc])).
Proof. intros H. unfold import_bcc, call. rewrite H. reflexivity. Qed.

Lemma BPF_eq env src cf d st :
  BPF env src cf d st =
    (env_BPF env (length (trace st)) src cf d, mk_st (out st) (trace st ++ [EvBPF src cf d])).
Proof. reflexivity. Qed.

Lemma check_maps_eq b maps (present : string -> bool) st :
  (forall n, In n maps -> bpf_contains b n = Ok (present n)) ->
  check_maps b maps st =
    (Ok tt, mk_st (out st ++ map (fun n => map_line n (present n)) maps) (trace st)).
Proof.
  revert st. induction maps as [|n ns IH]; intros st Hb.
  - simpl. rewrite app_nil_r. destruct st. reflexivity.
  - cbn [check_maps]. erewrite bind_ok; [cbv beta | unfold bpf_in; rewrite (Hb n (or_introl eq_refl)); reflexivity].
    step_print. rewrite IH by (intros m Hm; apply Hb; right; exact Hm).
    simpl. rewrite <- app_assoc. reflexivity.
Qed.

(** An exception of class [Exception] escaping the [try] block becomes a
    [False] result and a failure line carrying [str(e)]. *)
Lemma compile_bpf_catches env st e st' :
  compile_bpf_body env st = (Raise e, st') ->
  is_Exception (exc_cls e) = true ->
  compile_bpf env st =
    (Ok false, mk_st (out st' ++ ["✗ BPF compilation failed: " +:+ exc_str e]) (trace st')).
Proof.
  intros H Hc. unfold compile_bpf. rewrite (try_caught _ _ _ _ _ _ H Hc).
  step_print. reflexivity.
Qed.

(** C5: once the load succeeds, ProbeCompilationCheck passes whatever subset
    of the five required tables the loaded probe exposes; each table only
    contributes a found/not-found line. *)
Theorem compile_bpf_passes_any_tables env st h (present : string -> bool) :
  env_import_bcc env (length (trace st)) = None ->
  env_exists env (S (length (trace st))) "bpf.c" = true ->
  env_BPF env (S (S (length (trace st)))) "bpf.c" bpf_cflags 0 = Ok h ->
  (forall n, In n required_maps -> bpf_contains h n = Ok (present n)) ->
  compile_bpf env st =
    (Ok true,
     mk_st (out st ++ ["Compiling BPF program..."; "✓ BPF program compiled successfully"]
                   ++ map (fun n => map_line n (present n)) required_maps)
           (trace st ++ [EvImportBcc; EvExists "bpf.c"; EvBPF "bpf.c" bpf_cflags 0])).
Proof.
  intros Himp Hex Hload Hmaps. unfold compile_bpf. apply try_ok.
  unfold compile_bpf_body. step (import_bcc_ok env st Himp).
  step (os_path_exists_eq env "bpf.c"). cbn [trace out]. rewrite length_snoc, Hex.
  cbn [negb]. step_print.
  erewrite bind_ok; [cbv beta | rewrite BPF_eq; cbn [trace out];
    rewrite !length_snoc, Hload; reflexivity].
  step_print. step (fun st0 => check_maps_eq h required_maps present st0 Hmaps).
  unfold ret. simpl. rewrite <- !app_assoc. reflexivity.
Qed.

Lemma compile_bpf_body_import_raise env st e :
  env_import_bcc env (length (trace st)) = Some e ->
  compile_bpf_body env st = (Raise e, mk_st (out st) (trace st ++ [EvImportBcc])).
Proof.
  intros H. unfold compile_bpf_body. apply bind_raise. apply import_bcc_raise. exact H.
Qed.

(** C9: whatever the host and the library do, [compile_bpf] returns a
    boolean unless an exception outside the [Exception] hierarchy
    escapes; an exception from the [bcc] import inside its [try] is caught
    unless it is such an exception; a [bpf.c] gone since [check_files]
    gives [False]. *)
Theorem compile_bpf_total env st :
  match fst (compile_bpf env st) with
  | Ok _ => True
  | Raise e => is_Exception (exc_cls e) = false
  end /\
  match env_import_bcc env (length (trace st)) with
  | Some e => fst (compile_bpf env st) = if is_Exception (exc_cls e) then Ok false else Raise e
  | None => True
  end /\
  match env_import_bcc env (length (trace st)), env_exists env (S (length (trace st))) "bpf.c" with
  | None, false =>
      compile_bpf env st =
        (Ok false, mk_st (out st ++ ["✗ bpf.c not found"]) (trace st ++ [EvImportBcc; EvExists "bpf.c"]))
  | _, _ => True
  end.
Proof.
  split; [| split].
  - unfold compile_bpf, try_except.
    destruct (compile_bpf_body env st) as [[b|e] st'];
      [exact I | destruct (is_Exception (exc_cls e)) eqn:E; [exact I | exact E]].
  - destruct (env_import_bcc env (length (trace st))) as [e|] eqn:Himp; [| exact I].
    unfold compile_bpf, try_except.
    rewrite (compile_bpf_body_import_raise env st e Himp).
    destruct (is_Exception (exc_cls e)); reflexivity.
  - destruct (env_import_bcc env (length (trace st))) as [e|] eqn:Himp; [exact I |].
    destruct (env_exists env (S (length (trace st))) "bpf.c") eqn:Hex; [exact I |].
    unfold compile_bpf. apply try_ok. unfold compile_bpf_body.
    step (import_bcc_ok env st Himp).
    step (os_path_exists_eq env "bpf.c"). cbn [trace out].
    rewrite length_snoc, Hex. cbn [negb]. step_print.
    unfold ret. simpl. rewrite <- app_assoc. reflexivity.
Qed.

(** ** Traces of the compilation check *)

Lemma check_maps_trace b maps st : trace (snd (check_maps b maps st)) = trace st.
Proof.
  revert st. induction maps as [|n ns IH]; intros st; [reflexivity |].
  cbn [check_maps]. unfold bind at 1, bpf_in.
  destruct (bpf_contains b n) as [found|e]; [| reflexivity].
  unfold bind at 1. rewrite print_eq. rewrite IH. reflexivity.
Qed.

(** [compile_bpf] starts by importing [bcc], then queries [bpf.c] at most
    once and loads it at most once. *)
Lemma compile_bpf_trace env st :
  exists new, trace (snd (compile_bpf env st)) = trace st ++ EvImportBcc :: new /\
    (new = [] \/ new = [EvExists "bpf.c"] \/ new = [EvExists "bpf.c"; EvBPF "bpf.c" bpf_cflags 0]).
Proof.
  assert (Hbody : exists new, trace (snd (compile_bpf_body env st)) = trace st ++ EvImportBcc :: new /\
    (new = [] \/ new = [EvExists "bpf.c"] \/ new = [EvExists "bpf.c"; EvBPF "bpf.c" bpf_cflags 0])).
  { unfold compile_bpf_body, bind at 1, import_bcc, call.
    destruct (env_import_bcc env (length (trace st))) as [e|].
    - exists []. split; [reflexivity | left; reflexivity].
    - cbn [out trace]. unfold bind at 1. rewrite os_path_exists_eq. cbn [out trace].
      destruct (env_exists env _ "bpf.c"); cbn [negb].
      + unfold bind at 1. rewrite print_eq. unfold bind at 1. rewrite BPF_eq. cbn [out trace].
        destruct (env_BPF env _ "bpf.c" bpf_cflags 0) as [b|e].
        * unfold bind at 1. rewrite print_eq. unfold bind at 1.
          match goal with |- context [check_maps b required_maps ?s] =>
            pose proof (check_maps_trace b required_maps s) as Ht;
            destruct (check_maps b required_maps s) as [[u|e] st'] end;
          simpl in Ht;
          exists [EvExists "bpf.c"; EvBPF "bpf.c" bpf_cflags 0];
          (split; [simpl; rewrite Ht, <- !app_assoc; reflexivity | right; right; reflexivity]).
        * exists [EvExists "bpf.c"; EvBPF "bpf.c" bpf_cflags 0].
          split; [simpl; rewrite <- !app_assoc; reflexivity | right; right; reflexivity].
      + exists [EvExists "bpf.c"].
        split; [simpl; rewrite <- !app_assoc; reflexivity | right; left; reflexivity]. }
  destruct Hbody as [new [Ht Hnew]]. exists new. split; [| exact Hnew].
  unfold compile_bpf, try_except.
  destruct (compile_bpf_body env st) as [[b|e] st'] eqn:E; simpl in Ht.
  - exact Ht.
  - destruct (is_Exception (exc_cls e)); [| exact Ht].
    unfold bind. rewrite print_eq. exact Ht.
Qed.

(** ** Output and trace only grow *)


Lemma extends_ret {A} (a : A) : extends (ret a).
Proof. intros st. exists [], []. rewrite !app_nil_r. destruct st. reflexivity. Qed.

Lemma extends_print s : extends (print s).
Proof. intros st. exists [s], []. rewrite app_nil_r. reflexivity. Qed.

Lemma extends_call {A} ev (answer : nat -> res A) : extends (call ev answer).
Proof. intros st. exists [], [ev]. rewrite app_nil_r. reflexivity. Qed.

Lemma extends_bind {A B} (m : M A) (k : A -> M B) :
  extends m -> (forall a, extends (k a)) -> extends (bind m k).
Proof.
  intros Hm Hk st. unfold bind. destruct (Hm st) as (o1 & t1 & E1).
  destruct (m st) as [[a|e] st1]; simpl in E1; subst st1.
  - destruct (Hk a (mk_st (out st ++ o1) (trace st ++ t1))) as (o2 & t2 & E2).
    rewrite E2. exists (o1 ++ o2), (t1 ++ t2). simpl. rewrite <- !app_assoc. reflexivity.
  - exists o1, t1. reflexivity.
Qed.

Lemma extends_try {A} (m : M A) c h :
  extends m -> (forall e, extends (h e)) -> extends (try_except m c h).
Proof.
  intros Hm Hh st. unfold try_except. destruct (Hm st) as (o1 & t1 & E1).
  destruct (m st) as [[a|e] st1]; simpl in E1; subst st1.
  - exists o1, t1. reflexivity.
  - destruct (c (exc_cls e)); [| exists o1, t1; reflexivity].
    destruct (Hh e (mk_st (out st ++ o1) (trace st ++ t1))) as (o2 & t2 & E2).
    rewrite E2. exists (o1 ++ o2), (t1 ++ t2). simpl. rewrite <- !app_assoc. reflexivity.
Qed.

Lemma extends_if {A} (b : bool) (m1 m2 : M A) :
  extends m1 -> extends m2 -> extends (if b then m1 else m2).
Proof. destruct b; auto. Qed.

Lemma extends_bpf_in n b : extends (bpf_in n b).
Proof. intros st. exists [], []. rewrite !app_nil_r. destruct st. reflexivity. Qed.

Create HintDb extends_db.
Global Hint Resolve extends_ret extends_print extends_call extends_bind extends_try
  extends_if extends_bpf_in : extends_db.

Ltac solve_extends :=
  repeat (intros; match goal with
  | |- extends (bind _ _) => apply extends_bind
  | |- extends (try_except _ _ _) => apply extends_try
  | |- extends (if _ then _ else _) => apply extends_if
  | |- extends (match ?x with _ => _ end) => destruct x
  | _ => eauto with extends_db
  end).

Lemma extends_check_maps b maps : extends (check_maps b maps).
Proof. induction maps; simpl; solve_extends. Qed.
Global Hint Resolve extends_check_maps : extends_db.

Lemma extends_compile_bpf env : extends (compile_bpf env).
Proof.
  unfold compile_bpf, compile_bpf_body, import_bcc, os_path_exists, BPF. solve_extends.
Qed.

Lemma extends_check_root env : extends (check_root env).
Proof. unfold check_root, os_getuid. solve_extends. Qed.

(** ** The gate of the compilation check *)

Ltac bind_case H :=
  match type of H with
  | bind ?m ?k ?s = _ =>
      let E := fresh "E" in
      destruct (m s) as [[?a | ?e] ?s'] eqn:E;
      [ rewrite (bind_ok _ _ _ _ _ E) in H; cbv beta zeta in H
      | rewrite (bind_raise _ _ _ _ _ E) in H; discriminate H ]
  end.

Lemma run_checks_123_shape env st rs st1 :
  run_checks_123 env st = (Ok rs, st1) -> exists r1 r2 r3, rs = [r1; r2; r3].
Proof.
  intros H. unfold run_checks_123 in H.
  unfold run_checks_123 in H; cbv zeta in H. repeat bind_case H. unfold ret in H. injection H as <- _. eauto.
Qed.

Lemma run_check_4_spec env results st1 :
  if all (firstn 3 results) then
    let st2 := mk_st (out st1 ++ ["4. Compiling BPF program..."]) (trace st1) in
    (exists new, trace (snd (run_check_4 env results st1)) = trace st1 ++ EvImportBcc :: new /\
       (new = [] \/ new = [EvExists "bpf.c"] \/
        new = [EvExists "bpf.c"; EvBPF "bpf.c" bpf_cflags 0])) /\
    (exists rest, out (snd (run_check_4 env results st1)) =
                  out st1 ++ "4. Compiling BPF program..." :: rest) /\
    fst (run_check_4 env results st1) =
      match fst (compile_bpf env st2) with
      | Ok r => Ok (results ++ [r])
      | Raise e => Raise e
      end
  else
    run_check_4 env results st1 =
      (Ok (results ++ [false]),
       mk_st (out st1 ++ ["4. Skipping BPF compilation (prerequisites not met)"; ""]) (trace st1)).
Proof.
  unfold run_check_4. destruct (all (firstn 3 results)).
  - cbv zeta. step_print.
    set (st2 := mk_st (out st1 ++ ["4. Compiling BPF program..."]) (trace st1)).
    destruct (compile_bpf_trace env st2) as (new & Ht & Hnew).
    destruct (extends_compile_bpf env st2) as (o & t & Eo).
    destruct (compile_bpf env st2) as [[r|e] st3] eqn:E; simpl in Ht, Eo; subst st3.
    + rewrite (bind_ok _ _ _ _ _ E). cbv beta. step_print. unfold ret; simpl.
      split; [| split].
      * exists new. split; [simpl in Ht; rewrite <- Ht; reflexivity | exact Hnew].
      * exists (o ++ [""]). simpl. rewrite <- !app_assoc. reflexivity.
      * reflexivity.
    + rewrite (bind_raise _ _ _ _ _ E). simpl.
      split; [| split].
      * exists new. split; [simpl in Ht; rewrite <- Ht; reflexivity | exact Hnew].
      * exists o. simpl. rewrite <- !app_assoc. reflexivity.
      * reflexivity.
  - cbv zeta. step_print. step_print. unfold ret. simpl.
    rewrite <- app_assoc. reflexivity.
Qed.

(** C3: after the first three checks, the compilation check is entered
    exactly once when all three passed (one [bcc] import opening it, at most
    one [bpf.c] query and at most one load), and otherwise no host
    interaction happens at all: the result [False] is appended after a
    "prerequisites not met" line. *)
Theorem compile_gated env st :
  match run_checks_123 env st with
  | (Ok results, st1) =>
      if all (firstn 3 results) then
        let st2 := mk_st (out st1 ++ ["4. Compiling BPF program..."]) (trace st1) in
        (exists new, trace (snd (run_check_4 env results st1)) = trace st1 ++ EvImportBcc :: new /\
           (new = [] \/ new = [EvExists "bpf.c"] \/
            new = [EvExists "bpf.c"; EvBPF "bpf.c" bpf_cflags 0])) /\
        (exists rest, out (snd (run_check_4 env results st1)) =
                      out st1 ++ "4. Compiling BPF program..." :: rest) /\
        fst (run_check_4 env results st1) =
          match fst (compile_bpf env st2) with
          | Ok r => Ok (results ++ [r])
          | Raise e => Raise e
          end
      else
        run_check_4 env results st1 =
          (Ok (results ++ [false]),
           mk_st (out st1 ++ ["4. Skipping BPF compilation (prerequisites not met)"; ""])
                 (trace st1))
  | (Raise _, _) => True
  end.
Proof.
  destruct (run_checks_123 env st) as [[results|e] st1]; [| exact I].
  apply run_check_4_spec.
Qed.

(** ** The privilege report and the results list *)


Lemma check_root_eq env st :
  let uid := env_getuid env (length (trace st)) in
  check_root env st =
    (Ok (Z.eqb uid 0), mk_st (out st ++ [root_line uid]) (trace st ++ [EvGetuid])).
Proof.
  cbv zeta. unfold check_root, bind, os_getuid, call, root_line. cbn [out trace].
  destruct (Z.eqb (env_getuid env (length (trace st))) 0); reflexivity.
Qed.

Lemma run_check_5_eq env st :
  run_check_5 env st =
    (Ok tt, mk_st (out st ++ ["5. Checking permissions...";
                              root_line (env_getuid env (length (trace st))); ""])
                  (trace st ++ [EvGetuid])).
Proof.
  unfold run_check_5. step_print. step (check_root_eq env).
  rewrite print_eq. simpl. rewrite <- !app_assoc. reflexivity.
Qed.

Lemma run_check_4_result env results st rs st' :
  run_check_4 env results st = (Ok rs, st') -> exists r, rs = results ++ [r].
Proof.
  intros H. unfold run_check_4 in H. destruct (all (firstn 3 results)); cbv zeta in H;
    repeat bind_case H; unfold ret in H; injection H as <- _; eauto.
Qed.

Lemma run_checks_eq env st :
  run_checks env st =
    match run_checks_123 env st with
    | (Ok r123, st1) =>
        match run_check_4 env r123 st1 with
        | (Ok results, st2) => (Ok results, snd (run_check_5 env st2))
        | (Raise e, st2) => (Raise e, st2)
        end
    | (Raise e, st1) => (Raise e, st1)
    end.
Proof.
  unfold run_checks, bind at 1.
  destruct (run_checks_123 env st) as [[r123|e] st1]; [| reflexivity].
  unfold bind at 1. destruct (run_check_4 env r123 st1) as [[results|e] st2]; [| reflexivity].
  unfold bind. rewrite run_check_5_eq. reflexivity.
Qed.

Lemma run_checks_shape env st results st' :
  run_checks env st = (Ok results, st') -> exists r1 r2 r3 r4, results = [r1; r2; r3; r4].
Proof.
  intros H. rewrite run_checks_eq in H.
  destruct (run_checks_123 env st) as [[r123|e] st1] eqn:E1; [| discriminate H].
  destruct (run_checks_123_shape env st r123 st1 E1) as (r1 & r2 & r3 & ->).
  destruct (run_check_4 env [r1; r2; r3] st1) as [[rs|e] st2] eqn:E2; [| discriminate H].
  destruct (run_check_4_result env _ _ _ _ E2) as [r4 ->].
  injection H as <- _. eauto.
Qed.

(** ** Determinism in the host's readings *)

Lemma bind_ext {A B} (m1 m2 : M A) (k1 k2 : A -> M B) st :
  (forall s, m1 s = m2 s) -> (forall a s, k1 a s = k2 a s) -> bind m1 k1 st = bind m2 k2 st.
Proof. intros Hm Hk. unfold bind. rewrite Hm. destruct (m2 st) as [[a|e] s]; auto. Qed.

Lemma bind_ext_rel {A B} (R : A -> A -> Prop) (m1 m2 : M A) (k1 k2 : A -> M B) st :
  match m1 st, m2 st with
  | (Ok a1, s1), (Ok a2, s2) => R a1 a2 /\ s1 = s2
  | (Raise x1, s1), (Raise x2, s2) => x1 = x2 /\ s1 = s2
  | _, _ => False
  end ->
  (forall a1 a2 s, R a1 a2 -> k1 a1 s = k2 a2 s) -> bind m1 k1 st = bind m2 k2 st.
Proof.
  intros Hm Hk. unfold bind.
  destruct (m1 st) as [[a1|x1] s1], (m2 st) as [[a2|x2] s2]; try contradiction;
    destruct Hm as [Ha ->]; [apply Hk; exact Ha | subst x2; reflexivity].
Qed.

Lemma answers_agree e1 e2 t files :
  (forall t p, In p files -> env_exists e1 t p = env_exists e2 t p) ->
  answers e1 t files = answers e2 t files.
Proof.
  revert t. induction files as [|f fs IH]; intros t H; [reflexivity |].
  simpl. rewrite (H t f (or_introl eq_refl)), IH; [reflexivity |].
  intros t' p Hp. apply H. right. exact Hp.
Qed.

Lemma check_maps_agree h1 h2 maps st :
  (forall n, In n maps -> bpf_contains h1 n = bpf_contains h2 n) ->
  check_maps h1 maps st = check_maps h2 maps st.
Proof.
  revert st. induction maps as [|n ns IH]; intros st H; [reflexivity |].
  cbn [check_maps]. apply bind_ext.
  - intros s. unfold bpf_in. rewrite (H n (or_introl eq_refl)). reflexivity.
  - intros a s. apply bind_ext; [reflexivity |].
    intros _ s'. apply IH. intros m Hm. apply H. right. exact Hm.
Qed.

Section Agree.

Variables e1 e2 : Env.
Hypothesis Hagree : agree_checks e1 e2.

Lemma check_python_version_agree st :
  check_python_version e1 st = check_python_version e2 st.
Proof. destruct Hagree as (Hv & _). rewrite !check_python_version_eq, Hv. reflexivity. Qed.

Lemma check_files_agree st : check_files e1 st = check_files e2 st.
Proof.
  destruct Hagree as (_ & Hex & _). unfold check_files. rewrite !check_files_loop_eq.
  rewrite (answers_agree e1 e2 _ required_files Hex). reflexivity.
Qed.

Lemma import_bcc_agree st : import_bcc e1 st = import_bcc e2 st.
Proof.
  destruct Hagree as (_ & _ & Hi & _). unfold import_bcc, call. rewrite Hi. reflexivity.
Qed.

Lemma check_bcc_agree st : check_bcc e1 st = check_bcc e2 st.
Proof.
  assert (E : forall k : unit -> M bool, bind (import_bcc e1) k st = bind (import_bcc e2) k st)
    by (intros k; apply bind_ext; [apply import_bcc_agree | reflexivity]).
  unfold check_bcc, try_except. rewrite E. reflexivity.
Qed.

Lemma compile_bpf_body_agree st : compile_bpf_body e1 st = compile_bpf_body e2 st.
Proof.
  destruct Hagree as (_ & Hex & _ & Hl).
  unfold compile_bpf_body. apply bind_ext; [apply import_bcc_agree |].
  intros _ s. apply bind_ext.
  { intros s'. rewrite !os_path_exists_eq, (Hex _ "bpf.c"); [reflexivity |].
    right. left. reflexivity. }
  intros ex s'. destruct (negb ex); [reflexivity |].
  apply bind_ext; [reflexivity |]. intros _ s''.
  apply (bind_ext_rel handle_agree).
  - rewrite !BPF_eq. specialize (Hl (length (trace s''))). unfold load_agree in Hl.
    destruct (env_BPF e1 _ "bpf.c" bpf_cflags 0) as [h1|x1],
             (env_BPF e2 _ "bpf.c" bpf_cflags 0) as [h2|x2]; try contradiction; auto.
  - intros h1 h2 s3 Hh. apply bind_ext; [reflexivity |]. intros _ s4.
    apply bind_ext; [| reflexivity]. intros s5. apply check_maps_agree. exact Hh.
Qed.

Lemma compile_bpf_agree st : compile_bpf e1 st = compile_bpf e2 st.
Proof. unfold compile_bpf, try_except. rewrite compile_bpf_body_agree. reflexivity. Qed.

Lemma run_checks_123_agree st : run_checks_123 e1 st = run_checks_123 e2 st.
Proof.
  unfold run_checks_123. cbv zeta.
  repeat (apply bind_ext; [first [reflexivity | apply check_python_version_agree
                                 | apply check_files_agree | apply check_bcc_agree] |];
          intros ? ?).
  reflexivity.
Qed.

Lemma run_check_4_agree results st : run_check_4 e1 results st = run_check_4 e2 results st.
Proof.
  unfold run_check_4. destruct (all (firstn 3 results)); [| reflexivity].
  apply bind_ext; [reflexivity |]. intros _ s.
  apply bind_ext; [apply compile_bpf_agree | reflexivity].
Qed.

Lemma run_checks_result_agree st : fst (run_checks e1 st) = fst (run_checks e2 st).
Proof.
  rewrite !run_checks_eq, run_checks_123_agree.
  destruct (run_checks_123 e2 st) as [[r123|e] st1]; [| reflexivity].
  rewrite run_check_4_agree.
  destruct (run_check_4 e2 r123 st1) as [[results|e] st2]; reflexivity.
Qed.

End Agree.

Lemma banner_eq st :
  banner st = (Ok tt, mk_st (out st ++ [rule; "eBPF Ransomware Detector - Validation Script"; rule; ""])
                            (trace st)).
Proof.
  unfold banner. step_print. step_print. step_print. rewrite print_eq. simpl.
  rewrite <- !app_assoc. reflexivity.
Qed.

Lemma verdict_result results st : fst (verdict results st) = Ok (if all results then 0 else 1).
Proof. unfold verdict. destruct (all results); reflexivity. Qed.

Lemma main_result env st :
  fst (main env st) =
    match fst (run_checks env (snd (banner st))) with
    | Ok results => Ok (if all results then 0 else 1)
    | Raise e => Raise e
    end.
Proof.
  unfold main. step banner_eq. rewrite banner_eq. cbn [snd]. unfold bind.
  destruct (run_checks env _) as [[results|e] st']; simpl; [apply verdict_result | reflexivity].
Qed.

(** C1: the exit status is 0 exactly when the four gating checks all
    returned [True], and 1 otherwise; the effective user id, the only
    input of the privilege check, never changes it. *)
Theorem main_exit_code env st (uid : nat -> Z) :
  match fst (run_checks env (snd (banner st))) with
  | Ok results =>
      exists r1 r2 r3 r4, results = [r1; r2; r3; r4] /\
        fst (main env st) = Ok (if r1 && r2 && r3 && r4 then 0 else 1)
  | Raise e => fst (main env st) = Raise e
  end /\
  fst (main (env_with_uid env uid) st) = fst (main env st).
Proof.
  split.
  - rewrite main_result.
    destruct (run_checks env (snd (banner st))) as [[results|e] st'] eqn:E; [| reflexivity].
    simpl. destruct (run_checks_shape _ _ _ _ E) as (r1 & r2 & r3 & r4 & ->).
    exists r1, r2, r3, r4. split; [reflexivity |]. unfold all. simpl.
    rewrite andb_true_r, !andb_assoc. reflexivity.
  - rewrite !main_result, (run_checks_result_agree (env_with_uid env uid) env); [reflexivity |].
    unfold agree_checks. cbn [env_with_uid env_version env_exists env_import_bcc env_BPF].
    split; [reflexivity | split; [intros; reflexivity | split; [intros; reflexivity |]]].
    intros t. unfold load_agree.
    destruct (env_BPF env t "bpf.c" bpf_cflags 0); [intros ? ? |]; reflexivity.
Qed.

Lemma run_checks_agree e1 e2 st : agree e1 e2 -> run_checks e1 st = run_checks e2 st.
Proof.
  intros [Hc Hu]. rewrite !run_checks_eq, (run_checks_123_agree e1 e2 Hc).
  destruct (run_checks_123 e2 st) as [[r123|e] st1]; [| reflexivity].
  rewrite (run_check_4_agree e1 e2 Hc).
  destruct (run_check_4 e2 r123 st1) as [[results|e] st2]; [| reflexivity].
  rewrite !run_check_5_eq, Hu. reflexivity.
Qed.

(** C10: two hosts giving the same readings (interpreter version, existence
    of the three artifacts, [bcc] imports, load outcome and memberships of
    the five tables, effective user id) yield the same report lines, the
    same host interactions and the same exit status. *)
Theorem main_deterministic e1 e2 st :
  agree e1 e2 -> main e1 st = main e2 st.
Proof.
  intros H. unfold main. apply bind_ext; [reflexivity |]. intros _ s.
  apply bind_ext; [| reflexivity]. intros s'. apply run_checks_agree. exact H.
Qed.

Ltac prove_agree :=
  split; [split; [reflexivity | split; [| split]] |];
  [ intros t p Hp; simpl in Hp; destruct Hp as [<- | [<- | [<- | []]]]; reflexivity
  | intros t; reflexivity
  | intros t; simpl; intros n Hn; simpl in Hn;
    destruct Hn as [<- | [<- | [<- | [<- | [<- | []]]]]]; reflexivity
  | intros t; reflexivity ].

Lemma main_deterministic_witness :
  agree env_ok env_ok' /\ main env_ok St0 = main env_ok' St0.
Proof.
  assert (H : agree env_ok env_ok') by prove_agree.
  split; [exact H | apply (main_deterministic env_ok env_ok' St0); exact H].
Defined.

(** ** A failing compilation is reported, and the run goes on *)

Lemma check_python_version_ok env st :
  3 <= major (env_version env) -> 6 <= minor (env_version env) ->
  check_python_version env st =
    (Ok true, mk_st (out st ++ [version_line "✓" (env_version env)]) (trace st)).
Proof.
  intros H1 H2. rewrite check_python_version_eq. apply Z.leb_le in H1, H2.
  cbv zeta. rewrite H1, H2. reflexivity.
Qed.

Lemma check_files_ok env st :
  env_exists env (length (trace st)) "detector.py" = true ->
  env_exists env (S (length (trace st))) "bpf.c" = true ->
  env_exists env (S (S (length (trace st)))) "bpf.h" = true ->
  check_files env st =
    (Ok true, mk_st (out st ++ [file_line "detector.py" true; file_line "bpf.c" true;
                                file_line "bpf.h" true])
                    (trace st ++ map EvExists required_files)).
Proof.
  intros H1 H2 H3. unfold check_files. rewrite check_files_loop_eq. simpl.
  rewrite H1, H2, H3. reflexivity.
Qed.

Lemma check_bcc_ok env st :
  env_import_bcc env (length (trace st)) = None ->
  check_bcc env st =
    (Ok true, mk_st (out st ++ ["✓ BCC Python module available"]) (trace st ++ [EvImportBcc])).
Proof.
  intros H. unfold check_bcc. apply try_ok. step (import_bcc_ok env st H).
  step_print. reflexivity.
Qed.

Lemma compile_bpf_body_load_raise env st e :
  env_import_bcc env (length (trace st)) = None ->
  env_exists env (S (length (trace st))) "bpf.c" = true ->
  env_BPF env (S (S (length (trace st)))) "bpf.c" bpf_cflags 0 = Raise e ->
  compile_bpf_body env st =
    (Raise e, mk_st (out st ++ ["Compiling BPF program..."])
                    (trace st ++ [EvImportBcc; EvExists "bpf.c"; EvBPF "bpf.c" bpf_cflags 0])).
Proof.
  intros Himp Hex Hload. unfold compile_bpf_body. step (import_bcc_ok env st Himp).
  step (os_path_exists_eq env "bpf.c"). cbn [trace out].
  rewrite length_snoc, Hex. cbn [negb]. step_print.
  apply bind_raise. rewrite BPF_eq. cbn [trace out]. rewrite !length_snoc, Hload.
  rewrite <- !app_assoc. reflexivity.
Qed.

Lemma run_checks_123_pass env st :
  3 <= major (env_version env) -> 6 <= minor (env_version env) ->
  env_exists env (length (trace st)) "detector.py" = true ->
  env_exists env (S (length (trace st))) "bpf.c" = true ->
  env_exists env (S (S (length (trace st)))) "bpf.h" = true ->
  env_import_bcc env (S (S (S (length (trace st))))) = None ->
  run_checks_123 env st =
    (Ok [true; true; true],
     mk_st (out st ++ ["1. Checking Python version..."; version_line "✓" (env_version env); "";
                       "2. Checking required files..."; file_line "detector.py" true;
                       file_line "bpf.c" true; file_line "bpf.h" true; "";
                       "3. Checking BCC availability..."; "✓ BCC Python module available"; ""])
           (trace st ++ [EvExists "detector.py"; EvExists "bpf.c"; EvExists "bpf.h"; EvImportBcc])).
Proof.
  intros Hmaj Hmin Hf0 Hf1 Hf2 Hi3. unfold run_checks_123. cbv zeta.
  step_print. step (fun st => check_python_version_ok env st Hmaj Hmin).
  step_print. step_print.
  erewrite bind_ok; [cbv beta | apply check_files_ok; assumption].
  step_print. step_print.
  erewrite bind_ok; [cbv beta | apply check_bcc_ok; cbn [trace out];
                                rewrite length_app; simpl; rewrite Nat.add_comm; exact Hi3].
  step_print. unfold ret. simpl. rewrite <- !app_assoc. reflexivity.
Qed.

Lemma run_check_4_load_raise env results st e :
  all (firstn 3 results) = true ->
  env_import_bcc env (length (trace st)) = None ->
  env_exists env (S (length (trace st))) "bpf.c" = true ->
  env_BPF env (S (S (length (trace st)))) "bpf.c" bpf_cflags 0 = Raise e ->
  is_Exception (exc_cls e) = true ->
  run_check_4 env results st =
    (Ok (results ++ [false]),
     mk_st (out st ++ ["4. Compiling BPF program..."; "Compiling BPF program...";
                       "✗ BPF compilation failed: " +:+ exc_str e; ""])
           (trace st ++ [EvImportBcc; EvExists "bpf.c"; EvBPF "bpf.c" bpf_cflags 0])).
Proof.
  intros Hall Hi Hx Hl Hc. unfold run_check_4. rewrite Hall. cbv zeta. step_print.
  erewrite bind_ok; [cbv beta |].
  2: { apply compile_bpf_catches; [| exact Hc].
       apply compile_bpf_body_load_raise; assumption. }
  step_print. unfold ret. simpl. rewrite <- !app_assoc. reflexivity.
Qed.

Ltac find_in := simpl; repeat (first [left; reflexivity | right]).

Lemma run_check_4_load_escape env results st e :
  all (firstn 3 results) = true ->
  env_import_bcc env (length (trace st)) = None ->
  env_exists env (S (length (trace st))) "bpf.c" = true ->
  env_BPF env (S (S (length (trace st)))) "bpf.c" bpf_cflags 0 = Raise e ->
  is_Exception (exc_cls e) = false ->
  run_check_4 env results st =
    (Raise e,
     mk_st (out st ++ ["4. Compiling BPF program..."; "Compiling BPF program..."])
           (trace st ++ [EvImportBcc; EvExists "bpf.c"; EvBPF "bpf.c" bpf_cflags 0])).
Proof.
  intros Hall Hi Hx Hl Hc. unfold run_check_4. rewrite Hall. cbv zeta. step_print.
  apply bind_raise. unfold compile_bpf, try_except.
  rewrite (compile_bpf_body_load_raise _ _ e) by assumption. rewrite Hc.
  cbn [out trace]. rewrite <- app_assoc. reflexivity.
Qed.

(** C7 (as the code has it): when the first three checks pass and the load
    raises an exception [e]: if [e] is of class [Exception], the failure is
    reported with [str(e)], the privilege check still runs, and the script
    exits with 1; otherwise ([KeyboardInterrupt], [SystemExit],
    [GeneratorExit]) [e] is not caught and propagates out of [main], which
    stops right after the load, before the privilege check and the verdict. *)
Theorem compile_failure_reported env e :
  3 <= major (env_version env) -> 6 <= minor (env_version env) ->
  env_exists env 0 "detector.py" = true -> env_exists env 1 "bpf.c" = true ->
  env_exists env 2 "bpf.h" = true -> env_import_bcc env 3 = None ->
  env_import_bcc env 4 = None -> env_exists env 5 "bpf.c" = true ->
  env_BPF env 6 "bpf.c" bpf_cflags 0 = Raise e ->
  (is_Exception (exc_cls e) = true ->
   exists st', main env St0 = (Ok 1, st') /\
     In ("✗ BPF compilation failed: " +:+ exc_str e) (out st') /\
     In "5. Checking permissions..." (out st')) /\
  (is_Exception (exc_cls e) = false ->
   exists st', main env St0 = (Raise e, st') /\
     trace st' = [EvExists "detector.py"; EvExists "bpf.c"; EvExists "bpf.h"; EvImportBcc;
                  EvImportBcc; EvExists "bpf.c"; EvBPF "bpf.c" bpf_cflags 0] /\
     ~ In "5. Checking permissions..." (out st')).
Proof.
  intros Hmaj Hmin Hf0 Hf1 Hf2 Hi3 Hi4 Hx5 Hl6. split; intros Hc.
  - eexists. split; [| split].
    + unfold main. step banner_eq.
      erewrite bind_ok; [cbv beta |].
      2: { rewrite run_checks_eq. rewrite run_checks_123_pass by assumption.
           rewrite (run_check_4_load_raise _ _ _ e) by first [reflexivity | assumption].
           rewrite run_check_5_eq. reflexivity. }
      unfold verdict. step_print. cbn [all forallb andb app]. step_print. step_print.
      step_print. reflexivity.
    + find_in.
    + find_in.
  - eexists. split; [| split].
    + unfold main. step banner_eq.
      erewrite bind_raise; [reflexivity |].
      rewrite run_checks_eq. rewrite run_checks_123_pass by assumption.
      rewrite (run_check_4_load_escape _ _ _ e) by first [reflexivity | assumption].
      reflexivity.
    + reflexivity.
    + cbn [out St0]. rewrite !in_app_iff. cbn [In app].
      intros Hin. repeat destruct Hin as [Hin | Hin]; try discriminate Hin; try exact Hin.
Qed.

(** ** Witnesses *)

Lemma check_python_version_rejects_4_0_witness :
  fst (check_python_version env_py40 St0) = Ok false.
Proof. apply (check_python_version_rejects_4_0 env_py40 St0); simpl; lia. Defined.

Lemma compile_bpf_passes_any_tables_witness :
  exists st', compile_bpf env_some_maps St0 = (Ok true, st').
Proof.
  eexists. apply (compile_bpf_passes_any_tables env_some_maps St0 some_maps some_maps_present);
    [reflexivity | reflexivity | reflexivity | intros n Hn; reflexivity].
Defined.

Lemma compile_failure_reported_witness :
  (exists st', main env_load_fails St0 = (Ok 1, st') /\
    In ("✗ BPF compilation failed: " +:+ exc_str compile_error) (out st') /\
    In "5. Checking permissions..." (out st')) /\
  (exists st', main env_load_interrupted St0 = (Raise interrupt, st') /\
    trace st' = [EvExists "detector.py"; EvExists "bpf.c"; EvExists "bpf.h"; EvImportBcc;
                 EvImportBcc; EvExists "bpf.c"; EvBPF "bpf.c" bpf_cflags 0] /\
    ~ In "5. Checking permissions..." (out st')).
Proof.
  split.
  - refine (proj1 (compile_failure_reported env_load_fails compile_error
                     _ _ _ _ _ _ _ _ _) _);
      vm_compute; first [reflexivity | discriminate].
  - refine (proj2 (compile_failure_reported env_load_interrupted interrupt
                     _ _ _ _ _ _ _ _ _) _);
      vm_compute; first [reflexivity | discriminate].
Defined.

(** ** Counterexamples *)

(** C2: the results list of a completed run has four entries, not five. *)
Lemma run_checks_not_five :
  ~ (forall env st results st', run_checks env st = (Ok results, st') -> length results = 5%nat).
Proof.
  intros H.
  assert (E : run_checks env_ok St0 = (Ok [true; true; true; true], snd (run_checks env_ok St0)))
    by (vm_compute; reflexivity).
  specialize (H _ _ _ _ E). discriminate H.
Qed.

(** C7: a [KeyboardInterrupt] raised by the load escapes [compile_bpf]
    and [main]: no exit status is produced. *)
Lemma load_interrupt_escapes :
  fst (main env_load_interrupted St0) = Raise interrupt.
Proof. vm_compute. reflexivity. Qed.

(** C9: after [check_bcc] succeeded, an interrupted import inside
    [compile_bpf] propagates out of the check and out of [main]. *)
Lemma import_interrupt_escapes :
  fst (main env_import_interrupted St0) = Raise interrupt /\
  ~ (forall env st, exists b, fst (compile_bpf env st) = Ok b).
Proof.
  split; [vm_compute; reflexivity |].
  intros H. destruct (H env_import_interrupted (mk_st [] [EvGetuid; EvGetuid; EvGetuid; EvGetuid]))
    as [b Hb].
  vm_compute in Hb. discriminate Hb.
Qed.

(** ** Further properties of the script *)

Lemma check_bcc_eq env st :
  check_bcc env st =
    match env_import_bcc env (length (trace st)) with
    | None => (Ok true, mk_st (out st ++ ["✓ BCC Python module available"])
                              (trace st ++ [EvImportBcc]))
    | Some e =>
        if is_ImportError (exc_cls e) then
          (Ok false, mk_st (out st ++ ["✗ BCC Python module not found";
                                       "  Install with: sudo apt-get install python3-bpfcc"])
                           (trace st ++ [EvImportBcc]))
        else (Raise e, mk_st (out st) (trace st ++ [EvImportBcc]))
    end.
Proof.
  destruct (env_import_bcc env (length (trace st))) as [e|] eqn:H.
  - unfold check_bcc, try_except. rewrite (bind_raise _ _ _ _ _ (import_bcc_raise env st e H)).
    destruct (is_ImportError (exc_cls e)); [| reflexivity].
    cbv beta. step_print. step_print. unfold ret. simpl. rewrite <- app_assoc. reflexivity.
  - apply check_bcc_ok. exact H.
Qed.

Lemma verdict_eq results st :
  verdict results st =
    (Ok (if all results then 0 else 1),
     mk_st (out st ++ rule ::
              if all results then
                ["✅ All validations passed!"; ""; "System is ready to run the detector:";
                 "  sudo python3 detector.py"]
              else
                ["❌ Some validations failed"; "";
                 "Please fix the issues above before running the detector."])
           (trace st)).
Proof.
  unfold verdict. step_print. destruct (all results);
    repeat step_print; unfold ret; simpl; rewrite <- !app_assoc; reflexivity.
Qed.

Lemma check_maps_raise b pre n post (present : string -> bool) e st :
  (forall m, In m pre -> bpf_contains b m = Ok (present m)) ->
  bpf_contains b n = Raise e ->
  check_maps b (pre ++ n :: post) st =
    (Raise e, mk_st (out st ++ map (fun m => map_line m (present m)) pre) (trace st)).
Proof.
  revert st. induction pre as [|m ms IH]; intros st Hpre Hn.
  - simpl. unfold bind, bpf_in. rewrite Hn, app_nil_r. destruct st. reflexivity.
  - cbn [app check_maps].
    erewrite bind_ok; [cbv beta | unfold bpf_in; rewrite (Hpre m (or_introl eq_refl)); reflexivity].
    step_print. rewrite IH; [| intros m' Hm'; apply Hpre; right; exact Hm' | exact Hn].
    simpl. rewrite <- app_assoc. reflexivity.
Qed.

Lemma run_checks_123_result env st :
  (forall e, env_import_bcc env (3 + length (trace st)) = Some e ->
             is_ImportError (exc_cls e) = true) ->
  exists o, run_checks_123 env st =
    (Ok [(3 <=? major (env_version env)) && (6 <=? minor (env_version env));
         all (answers env (length (trace st)) required_files);
         match env_import_bcc env (3 + length (trace st)) with None => true | Some _ => false end],
     mk_st (out st ++ o) (trace st ++ map EvExists required_files ++ [EvImportBcc])).
Proof.
  intros Hbcc. unfold run_checks_123. cbv zeta.
  step_print. step (check_python_version_eq env). step_print. step_print.
  erewrite bind_ok; [cbv beta | unfold check_files; apply check_files_loop_eq].
  step_print. step_print.
  assert (Hlen : forall o, length (trace (mk_st o (trace st ++ map EvExists required_files)))
                           = (3 + length (trace st))%nat)
    by (intros o; cbn [trace]; rewrite length_app; simpl; lia).
  destruct (env_import_bcc env (3 + length (trace st))) as [e|] eqn:He.
  - pose proof (Hbcc e eq_refl) as Hi.
    erewrite bind_ok; [cbv beta | rewrite check_bcc_eq, Hlen, He, Hi; reflexivity].
    step_print. unfold ret. cbn [out trace].
    eexists. rewrite <- !app_assoc. reflexivity.
  - erewrite bind_ok; [cbv beta | rewrite check_bcc_eq, Hlen, He; reflexivity].
    step_print. unfold ret. cbn [out trace].
    eexists. rewrite <- !app_assoc. reflexivity.
Qed.

Lemma run_checks_123_raise env st e :
  env_import_bcc env (3 + length (trace st)) = Some e ->
  is_ImportError (exc_cls e) = false ->
  exists o, run_checks_123 env st =
    (Raise e, mk_st (out st ++ o) (trace st ++ map EvExists required_files ++ [EvImportBcc])).
Proof.
  intros He Hi. unfold run_checks_123. cbv zeta.
  step_print. step (check_python_version_eq env). step_print. step_print.
  erewrite bind_ok; [cbv beta | unfold check_files; apply check_files_loop_eq].
  step_print. step_print.
  assert (Hlen : forall o, length (trace (mk_st o (trace st ++ map EvExists required_files)))
                           = (3 + length (trace st))%nat)
    by (intros o; cbn [trace]; rewrite length_app; simpl; lia).
  erewrite bind_raise; [| rewrite check_bcc_eq, Hlen, He, Hi; reflexivity].
  cbn [out trace]. eexists. rewrite <- !app_assoc. reflexivity.
Qed.

Lemma extends_check_python_version env : extends (check_python_version env).
Proof.
  intros st. pose proof (check_python_version_eq env st) as E. cbv zeta in E.
  rewrite E. eexists _, []. cbn [snd]. rewrite (app_nil_r (trace st)). reflexivity.
Qed.

Lemma extends_check_files env : extends (check_files env).
Proof. intros st. unfold check_files. rewrite check_files_loop_eq. eexists _, _. reflexivity. Qed.

Lemma extends_check_bcc env : extends (check_bcc env).
Proof.
  intros st. rewrite check_bcc_eq.
  destruct (env_import_bcc env (length (trace st))) as [e|];
    [destruct (is_ImportError (exc_cls e)) |];
    eexists _, _; cbn [snd]; first [reflexivity | rewrite <- (app_nil_r (out st)) at 1; reflexivity].
Qed.

Global Hint Resolve extends_check_python_version extends_check_files extends_check_bcc
  extends_compile_bpf : extends_db.

(** Replace a state reached by [print] by its value. *)
Ltac settle_prints :=
  repeat match goal with
  | E : print _ _ = (Ok _, ?s') |- _ => rewrite print_eq in E; injection E as _ E; subst s'
  end.




Lemma run_check_4_skip env rs st :
  all (firstn 3 rs) = false ->
  run_check_4 env rs st =
    (Ok (rs ++ [false]),
     mk_st (out st ++ ["4. Skipping BPF compilation (prerequisites not met)"; ""]) (trace st)).
Proof.
  intros H. unfold run_check_4. rewrite H. cbv zeta. step_print. step_print.
  unfold ret. cbn [out trace]. rewrite <- app_assoc. reflexivity.
Qed.

Lemma all_app_false rs : all (rs ++ [false]) = false.
Proof. unfold all. rewrite forallb_app. simpl. apply andb_false_r. Qed.

(** X1: [check_bcc] only catches the [ImportError] family: it returns
    [True] exactly when the import succeeds, [False] exactly when the
    import raises an [ImportError] (or [ModuleNotFoundError]), and any
    other exception of the import escapes it with nothing printed. On
    success it prints the availability line; on the [ImportError] path it
    prints the not-found line and the install hint. *)
Theorem check_bcc_outcomes env st :
  (fst (check_bcc env st) = Ok true <-> env_import_bcc env (length (trace st)) = None) /\
  (fst (check_bcc env st) = Ok false <->
     exists e, env_import_bcc env (length (trace st)) = Some e /\
               is_ImportError (exc_cls e) = true) /\
  (forall e, fst (check_bcc env st) = Raise e <->
     env_import_bcc env (length (trace st)) = Some e /\
     is_ImportError (exc_cls e) = false) /\
  (forall e, fst (check_bcc env st) = Raise e -> out (snd (check_bcc env st)) = out st) /\
  (fst (check_bcc env st) = Ok true ->
     out (snd (check_bcc env st)) = out st ++ ["✓ BCC Python module available"]) /\
  (fst (check_bcc env st) = Ok false ->
     out (snd (check_bcc env st)) =
       out st ++ ["✗ BCC Python module not found";
                  "  Install with: sudo apt-get install python3-bpfcc"]).
Proof.
  rewrite check_bcc_eq.
  destruct (env_import_bcc env (length (trace st))) as [e|];
    [destruct (is_ImportError (exc_cls e)) eqn:Hi |];
    cbn [fst snd out]; repeat split; intros;
    repeat match goal with
    | H : exists _, _ |- _ => destruct H as (? & ? & ?)
    | H : _ /\ _ |- _ => destruct H
    | H : Some _ = Some _ |- _ => injection H as <-
    end;
    try congruence; eauto.
Qed.

(** X2: an exception of the [bcc] import outside the [ImportError]
    family (such as an [OSError] from loading [libbcc]) is not caught by
    [check_bcc] nor by [main]: the run aborts after the import, without a
    verdict, without a compilation attempt and without the privilege check. *)
Theorem main_aborts_on_bcc_error env st e :
  env_import_bcc env (3 + length (trace st)) = Some e ->
  is_ImportError (exc_cls e) = false ->
  exists st', main env st = (Raise e, st') /\
    trace st' = trace st ++ [EvExists "detector.py"; EvExists "bpf.c"; EvExists "bpf.h";
                             EvImportBcc].
Proof.
  intros He Hi. unfold main. step banner_eq.
  destruct (run_checks_123_raise env
              (mk_st (out st ++ [rule; "eBPF Ransomware Detector - Validation Script"; rule; ""])
                     (trace st)) e He Hi) as [o E].
  unfold run_checks. erewrite bind_raise; [| erewrite bind_raise; [reflexivity | exact E]].
  eexists. split; [reflexivity | reflexivity].
Qed.

Lemma main_aborts_on_bcc_error_witness :
  exists st', main env_libbcc_broken St0 = (Raise libbcc_error, st') /\
    trace st' = trace St0 ++ [EvExists "detector.py"; EvExists "bpf.c"; EvExists "bpf.h";
                              EvImportBcc].
Proof. apply main_aborts_on_bcc_error; vm_compute; reflexivity. Defined.

(** X3: a completed run ends its report with the rule and the verdict
    block: exit status 0 with the ready message and the command to start
    the detector, or exit status 1 with the request to fix the issues. *)
Theorem main_report_ends_with_verdict env st c st' :
  main env st = (Ok c, st') ->
  (c = 0 /\ exists pre, out st' = pre ++
     [rule; "✅ All validations passed!"; ""; "System is ready to run the detector:";
      "  sudo python3 detector.py"]) \/
  (c = 1 /\ exists pre, out st' = pre ++
     [rule; "❌ Some validations failed"; "";
      "Please fix the issues above before running the detector."]).
Proof.
  intros H. unfold main in H. bind_case H. bind_case H.
  rewrite verdict_eq in H. injection H as Hc Hs. subst c st'. cbn [out].
  destruct (all a0); [left | right]; split; eauto.
Qed.

Lemma main_report_ends_with_verdict_witness :
  exists st', main env_ok St0 = (Ok 0, st') /\
  ((0 = 0 /\ exists pre, out st' = pre ++
     [rule; "✅ All validations passed!"; ""; "System is ready to run the detector:";
      "  sudo python3 detector.py"]) \/
   (0 = 1 /\ exists pre, out st' = pre ++
     [rule; "❌ Some validations failed"; "";
      "Please fix the issues above before running the detector."])).
Proof.
  eexists. split; [vm_compute; reflexivity |].
  apply (main_report_ends_with_verdict env_ok St0 0). vm_compute. reflexivity.
Defined.



(** X5: the table lookups run inside [compile_bpf]'s [try]: when the
    membership test of a table raises an [Exception], the lines of the
    tables before it have been printed, the remaining tables are not
    looked up, and the check fails with the failure line although the
    load itself succeeded. *)
Theorem compile_bpf_table_lookup_fails env st h pre n post (present : string -> bool) e :
  env_import_bcc env (length (trace st)) = None ->
  env_exists env (S (length (trace st))) "bpf.c" = true ->
  env_BPF env (S (S (length (trace st)))) "bpf.c" bpf_cflags 0 = Ok h ->
  required_maps = pre ++ n :: post ->
  (forall m, In m pre -> bpf_contains h m = Ok (present m)) ->
  bpf_contains h n = Raise e ->
  is_Exception (exc_cls e) = true ->
  compile_bpf env st =
    (Ok false,
     mk_st (out st ++ ["Compiling BPF program..."; "✓ BPF program compiled successfully"]
                   ++ map (fun m => map_line m (present m)) pre
                   ++ ["✗ BPF compilation failed: " +:+ exc_str e])
           (trace st ++ [EvImportBcc; EvExists "bpf.c"; EvBPF "bpf.c" bpf_cflags 0])).
Proof.
  intros Himp Hex Hload Hsplit Hpre Hn Hc. unfold compile_bpf, try_except.
  unfold compile_bpf_body. rewrite (bind_ok _ _ _ _ _ (import_bcc_ok env st Himp)).
  cbv beta. step (os_path_exists_eq env "bpf.c"). cbn [trace out].
  rewrite length_snoc, Hex. cbn [negb]. step_print.
  erewrite bind_ok; [cbv beta | rewrite BPF_eq; cbn [trace out];
    rewrite !length_snoc, Hload; reflexivity].
  step_print. rewrite Hsplit.
  rewrite (bind_raise _ _ _ _ _ (check_maps_raise h pre n post present e _ Hpre Hn)).
  rewrite Hc. step_print. unfold ret. cbn [out trace]. rewrite <- !app_assoc. reflexivity.
Qed.

Lemma compile_bpf_table_lookup_fails_witness :
  compile_bpf env_broken_tables St0 =
    (Ok false,
     mk_st (out St0 ++ ["Compiling BPF program..."; "✓ BPF program compiled successfully"]
                    ++ map (fun m => map_line m ((fun _ => true) m)) ["config"]
                    ++ ["✗ BPF compilation failed: " +:+ exc_str lookup_error])
           (trace St0 ++ [EvImportBcc; EvExists "bpf.c"; EvBPF "bpf.c" bpf_cflags 0])).
Proof.
  apply (compile_bpf_table_lookup_fails env_broken_tables St0 broken_tables ["config"]
           "patterns" ["threshold_patterns"; "pidstats"; "events"] (fun _ => true));
    try (vm_compute; reflexivity).
  intros m Hm. vm_compute in Hm. destruct Hm as [<- | []]. vm_compute. reflexivity.
Defined.

(** X6: when one of the first three checks fails and the [bcc] import
    raises nothing outside the [ImportError] family, the run exits with 1
    after asking the host exactly for the three artifacts, one [bcc]
    import and the user id: the probe is never loaded, [bpf.c] is not
    queried again, and the report says compilation was skipped. *)
Theorem main_skips_compilation env st :
  (forall e, env_import_bcc env (3 + length (trace st)) = Some e ->
             is_ImportError (exc_cls e) = true) ->
  (major (env_version env) < 3 \/ minor (env_version env) < 6 \/
   In false (answers env (length (trace st)) required_files) \/
   env_import_bcc env (3 + length (trace st)) <> None) ->
  exists st', main env st = (Ok 1, st') /\
    trace st' = trace st ++ [EvExists "detector.py"; EvExists "bpf.c"; EvExists "bpf.h";
                             EvImportBcc; EvGetuid] /\
    In "4. Skipping BPF compilation (prerequisites not met)" (out st').
Proof.
  intros Hbcc Hfail. unfold main. step banner_eq.
  destruct (run_checks_123_result env
              (mk_st (out st ++ [rule; "eBPF Ransomware Detector - Validation Script"; rule; ""])
                     (trace st)) Hbcc) as [o E].
  cbn [trace] in E.
  set (r1 := (3 <=? major (env_version env)) && (6 <=? minor (env_version env))) in E.
  set (r2 := all (answers env (length (trace st)) required_files)) in E.
  set (r3 := match env_import_bcc env (3 + length (trace st)) with
             | None => true | Some _ => false end) in E.
  assert (Hall : all [r1; r2; r3] = false).
  { unfold all, r1, r2, r3. cbn [forallb]. rewrite andb_true_r.
    destruct Hfail as [H | [H | [H | H]]].
    - apply Z.leb_gt in H. rewrite H. reflexivity.
    - apply Z.leb_gt in H. rewrite H, andb_false_r. reflexivity.
    - assert (Hf : all (answers env (length (trace st)) required_files) = false).
      { unfold all. destruct (forallb (fun x => x) _) eqn:Hb; [| reflexivity].
        rewrite forallb_forall in Hb. apply Hb in H. discriminate H. }
      rewrite Hf, andb_false_r. reflexivity.
    - destruct (env_import_bcc env (3 + length (trace st))); [| congruence].
      rewrite !andb_false_r. reflexivity. }
  unfold run_checks. rewrite bind_assoc. step E.
  rewrite bind_assoc. step (fun st0 => run_check_4_skip env [r1; r2; r3] st0 Hall).
  rewrite bind_assoc. step (run_check_5_eq env).
  erewrite bind_ok; [cbv beta | reflexivity].
  rewrite verdict_eq, all_app_false. eexists. split; [reflexivity |]. cbn [out trace].
  split; [rewrite <- !app_assoc; reflexivity |].
  rewrite !in_app_iff. cbn [In]. auto 10.
Qed.

Lemma main_skips_compilation_witness :
  exists st', main env_no_header St0 = (Ok 1, st') /\
    trace st' = trace St0 ++ [EvExists "detector.py"; EvExists "bpf.c"; EvExists "bpf.h";
                              EvImportBcc; EvGetuid] /\
    In "4. Skipping BPF compilation (prerequisites not met)" (out st').
Proof.
  apply main_skips_compilation.
  - intros e He. vm_compute in He. discriminate He.
  - right. right. left. vm_compute. right. right. left. reflexivity.
Defined.

Lemma compile_bpf_loaded env st h (present : string -> bool) :
  env_import_bcc env (length (trace st)) = None ->
  env_exists env (S (length (trace st))) "bpf.c" = true ->
  env_BPF env (S (S (length (trace st)))) "bpf.c" bpf_cflags 0 = Ok h ->
  (forall n, In n required_maps -> bpf_contains h n = Ok (present n)) ->
  compile_bpf env st =
    (Ok true,
     mk_st (out st ++ ["Compiling BPF program..."; "✓ BPF program compiled successfully"]
                   ++ map (fun n => map_line n (present n)) required_maps)
           (trace st ++ [EvImportBcc; EvExists "bpf.c"; EvBPF "bpf.c" bpf_cflags 0])).
Proof.
  intros Himp Hex Hload Hmaps. unfold compile_bpf. apply try_ok.
  unfold compile_bpf_body. step (import_bcc_ok env st Himp).
  step (os_path_exists_eq env "bpf.c"). cbn [trace out]. rewrite length_snoc, Hex.
  cbn [negb]. step_print.
  erewrite bind_ok; [cbv beta | rewrite BPF_eq; cbn [trace out];
    rewrite !length_snoc, Hload; reflexivity].
  step_print. step (fun st0 => check_maps_eq h required_maps present st0 Hmaps).
  unfold ret. simpl. rewrite <- !app_assoc. reflexivity.
Qed.

Lemma run_check_4_loaded env results st h (present : string -> bool) :
  all (firstn 3 results) = true ->
  env_import_bcc env (length (trace st)) = None ->
  env_exists env (S (length (trace st))) "bpf.c" = true ->
  env_BPF env (S (S (length (trace st)))) "bpf.c" bpf_cflags 0 = Ok h ->
  (forall n, In n required_maps -> bpf_contains h n = Ok (present n)) ->
  run_check_4 env results st =
    (Ok (results ++ [true]),
     mk_st (out st ++ ["4. Compiling BPF program..."; "Compiling BPF program...";
                       "✓ BPF program compiled successfully"]
                   ++ map (fun n => map_line n (present n)) required_maps ++ [""])
           (trace st ++ [EvImportBcc; EvExists "bpf.c"; EvBPF "bpf.c" bpf_cflags 0])).
Proof.
  intros Hall Hi Hx Hl Hm. unfold run_check_4. rewrite Hall. cbv zeta. step_print.
  erewrite bind_ok; [cbv beta | apply (compile_bpf_loaded _ _ h present); assumption].
  step_print. unfold ret. simpl. rewrite <- !app_assoc. reflexivity.
Qed.

(** X7: on a ready host (major version at least 3 and minor at least 6,
    the three artifacts present, [bcc] importable, the probe loading) the run
    exits with 0 and the ready message whatever subset of the five tables
    the probe exposes; it asks the host for the three artifacts, imports
    [bcc] twice, checks [bpf.c] again, loads the probe once with
    [-Wno-macro-redefined] and finally reads the user id. *)
Theorem main_ready_host env h (present : string -> bool) :
  3 <= major (env_version env) -> 6 <= minor (env_version env) ->
  env_exists env 0 "detector.py" = true -> env_exists env 1 "bpf.c" = true ->
  env_exists env 2 "bpf.h" = true -> env_import_bcc env 3 = None ->
  env_import_bcc env 4 = None -> env_exists env 5 "bpf.c" = true ->
  env_BPF env 6 "bpf.c" bpf_cflags 0 = Ok h ->
  (forall n, In n required_maps -> bpf_contains h n = Ok (present n)) ->
  exists st', main env St0 = (Ok 0, st') /\
    trace st' = [EvExists "detector.py"; EvExists "bpf.c"; EvExists "bpf.h"; EvImportBcc;
                 EvImportBcc; EvExists "bpf.c"; EvBPF "bpf.c" bpf_cflags 0; EvGetuid] /\
    In "✅ All validations passed!" (out st').
Proof.
  intros Hmaj Hmin Hf0 Hf1 Hf2 Hi3 Hi4 Hx5 Hl6 Hm.
  eexists. split; [| split].
  - unfold main. step banner_eq.
    erewrite bind_ok; [cbv beta |].
    2: { rewrite run_checks_eq. rewrite run_checks_123_pass by assumption.
         rewrite (run_check_4_loaded _ _ _ h present) by first [reflexivity | assumption].
         rewrite run_check_5_eq. reflexivity. }
    rewrite verdict_eq. reflexivity.
  - reflexivity.
  - cbn [out]. unfold all. cbn [forallb app andb]. rewrite !in_app_iff. cbn [In]. auto 10.
Qed.

Lemma main_ready_host_witness :
  exists st', main env_some_maps St0 = (Ok 0, st') /\
    trace st' = [EvExists "detector.py"; EvExists "bpf.c"; EvExists "bpf.h"; EvImportBcc;
                 EvImportBcc; EvExists "bpf.c"; EvBPF "bpf.c" bpf_cflags 0; EvGetuid] /\
    In "✅ All validations passed!" (out st').
Proof.
  apply (main_ready_host env_some_maps some_maps some_maps_present);
    try (vm_compute; first [reflexivity | discriminate]).
Defined.

Lemma check_python_version_trace env s :
  trace (snd (check_python_version env s)) = trace s.
Proof. pose proof (check_python_version_eq env s) as Q. cbv zeta in Q. rewrite Q. reflexivity. Qed.

Lemma check_files_trace env s :
  trace (snd (check_files env s)) = trace s ++ map EvExists required_files.
Proof. unfold check_files. rewrite check_files_loop_eq. reflexivity. Qed.

Lemma check_bcc_trace env s : trace (snd (check_bcc env s)) = trace s ++ [EvImportBcc].
Proof.
  rewrite check_bcc_eq. destruct (env_import_bcc env (length (trace s))) as [e|];
    [destruct (is_ImportError (exc_cls e)) |]; reflexivity.
Qed.

Lemma agree_checks_with_uid env uid : agree_checks (env_with_uid env uid) env.
Proof.
  unfold agree_checks. cbn [env_with_uid env_version env_exists env_import_bcc env_BPF].
  split; [reflexivity | split; [intros; reflexivity | split; [intros; reflexivity |]]].
  intros t. unfold load_agree.
  destruct (env_BPF env t "bpf.c" bpf_cflags 0); [intros ? ? |]; reflexivity.
Qed.

(** The trace after a step that completed. *)
Ltac trace_of E L :=
  match type of E with
  | ?m ?s = (Ok _, ?s') =>
      let T := fresh "T" in pose proof (L s) as T; rewrite E in T; cbn [snd] in T
  end.

(** C2 (as the code has it): a completed run aggregates exactly four
    booleans: the results of [check_python_version], [check_files] and
    [check_bcc] in the states the run reached them, then the result of
    [compile_bpf] when all three passed, or [False] with the skip line
    otherwise. The privilege check prints section 5 and its status line
    after them, and its boolean is not in the list: the list is the same
    for every effective user id. *)
Theorem run_checks_four_results env st results st' :
  run_checks env st = (Ok results, st') ->
  exists r1 r2 r3 r4 s1 s2 s3 s4 s5,
    results = [r1; r2; r3; r4] /\
    trace s1 = trace st /\ fst (check_python_version env s1) = Ok r1 /\
    trace s2 = trace st /\ fst (check_files env s2) = Ok r2 /\
    trace s3 = trace st ++ map EvExists required_files /\ fst (check_bcc env s3) = Ok r3 /\
    (if all [r1; r2; r3]
     then trace s4 = trace st ++ map EvExists required_files ++ [EvImportBcc] /\
          fst (compile_bpf env s4) = Ok r4
     else r4 = false /\
          In "4. Skipping BPF compilation (prerequisites not met)" (out st')) /\
    out st' = out s5 ++ ["5. Checking permissions...";
                         root_line (env_getuid env (length (trace s5))); ""] /\
    (forall uid, fst (run_checks (env_with_uid env uid) st) = Ok results).
Proof.
  intros H.
  assert (Huid : forall uid, fst (run_checks (env_with_uid env uid) st) = Ok results).
  { intros uid. rewrite (run_checks_result_agree (env_with_uid env uid) env
                           (agree_checks_with_uid env uid)), H. reflexivity. }
  rewrite run_checks_eq in H.
  destruct (run_checks_123 env st) as [[r123|e] st1] eqn:E1; [| discriminate H].
  destruct (run_check_4 env r123 st1) as [[rs|e] st2] eqn:E2; [| discriminate H].
  injection H as <- Hst'. rewrite run_check_5_eq in Hst'. cbn [snd] in Hst'. subst st'.
  unfold run_checks_123 in E1. cbv zeta in E1. repeat bind_case E1.
  unfold ret in E1. injection E1 as <- <-. settle_prints.
  match goal with E : check_python_version _ _ = _ |- _ =>
    trace_of E (check_python_version_trace env) end.
  match goal with E : check_files _ _ = _ |- _ => trace_of E (check_files_trace env) end.
  match goal with E : check_bcc _ _ = _ |- _ => trace_of E (check_bcc_trace env) end.
  unfold run_check_4 in E2. cbn [firstn] in E2.
  match goal with
  | Ea : check_python_version _ ?sa = (Ok ?ra, _),
    Eb : check_files _ ?sb = (Ok ?rb, _),
    Ec : check_bcc _ ?sc = (Ok ?rc, _) |- _ =>
      destruct (all [ra; rb; rc]) eqn:Hall; cbv zeta in E2; repeat bind_case E2;
      unfold ret in E2; injection E2 as <- Hs2; settle_prints;
      [ match goal with Ed : compile_bpf _ ?sd = (Ok ?rd, _) |- _ =>
          exists ra, rb, rc, rd, sa, sb, sc, sd end
      | exists ra, rb, rc, false, sa, sb, sc, St0 ];
      exists st2; cbn [trace] in *;
      (split; [reflexivity |]);
      (split; [reflexivity |]); (split; [rewrite Ea; reflexivity |]);
      (split; [congruence |]); (split; [rewrite Eb; reflexivity |]);
      (split; [congruence |]); (split; [rewrite Ec; reflexivity |])
  end.
  - rewrite Hall. split; [split |].
    + rewrite T1, T0, T, <- app_assoc. reflexivity.
    + match goal with Ed : compile_bpf _ _ = _ |- _ => rewrite Ed; reflexivity end.
    + split; [reflexivity | exact Huid].
  - rewrite Hall. split; [split |].
    + reflexivity.
    + cbn [out]. match goal with Hs : _ = st2 |- _ => rewrite <- Hs end.
      cbn [out]. rewrite !in_app_iff. cbn [In]. auto 10.
    + split; [reflexivity | exact Huid].
Qed.

Lemma run_checks_four_results_witness :
  exists results st', run_checks env_no_header St0 = (Ok results, st') /\
  exists r1 r2 r3 r4 s1 s2 s3 s4 s5,
    results = [r1; r2; r3; r4] /\
    trace s1 = trace St0 /\ fst (check_python_version env_no_header s1) = Ok r1 /\
    trace s2 = trace St0 /\ fst (check_files env_no_header s2) = Ok r2 /\
    trace s3 = trace St0 ++ map EvExists required_files /\
    fst (check_bcc env_no_header s3) = Ok r3 /\
    (if all [r1; r2; r3]
     then trace s4 = trace St0 ++ map EvExists required_files ++ [EvImportBcc] /\
          fst (compile_bpf env_no_header s4) = Ok r4
     else r4 = false /\
          In "4. Skipping BPF compilation (prerequisites not met)" (out st')) /\
    out st' = out s5 ++ ["5. Checking permissions...";
                         root_line (env_getuid env_no_header (length (trace s5))); ""] /\
    (forall uid, fst (run_checks (env_with_uid env_no_header uid) St0) = Ok results).
Proof.
  eexists. eexists. split; [vm_compute; reflexivity |].
  apply (run_checks_four_results env_no_header St0). vm_compute. reflexivity.
Defined.
